(** * Authentication endpoint and settings of Task1-MadDevs

    A shallow embedding of [src/apps/core/config.py] (the pydantic settings
    classes and the cached [get_settings]) and of
    [src/apps/api/v1/controllers/auth.py] (the [login] controller), with the
    collaborators the controller imports from modules outside these two
    files (the auth service and [core.security.Security]) modelled from the
    specification. *)

From Stdlib Require Import ZArith QArith String Ascii DecimalString.
From Stdlib Require Import List Bool Lia.
Import ListNotations.

Local Open Scope string_scope.
Local Open Scope Z_scope.

(** ** core/config.py *)

(** [Field(default=d, alias=A)]: the value found in the environment under
    the alias when there is one, the default otherwise. *)
Definition Field {A : Type} (default : A) (from_env : option A) : A :=
  match from_env with
  | Some v => v
  | None => default
  end.

(** [sqlalchemy.URL], as [URL.create] fills it. *)
Module URL.
Record t : Type := create {
  drivername : string;
  username : string;
  password : string;
  host : string;
  port : Z;
  database : string
}.
End URL.

(** [class CommonSettings(BaseSettings)] *)
Record CommonSettings : Type := {
  env_file : string;
  env_local_file : string
}.

(** [class HttpxSettings(CommonSettings)]; the two floats are kept as exact
    rationals. *)
Record HttpxSettings : Type := {
  httpx_common : CommonSettings;
  max_connections : Z;
  max_keepalive_connections : Z;
  keepalive_expiry : Q;
  timeout : Q
}.

(** [class AuthSettings(CommonSettings)] *)
Record AuthSettings : Type := {
  auth_common : CommonSettings;
  token_url : string;
  private_key_path : string;
  public_key_path : string;
  algorithm : string;
  access_token_expire_minutes : Z;
  refresh_token_expire_minutes : Z;
  doctor_username : string;
  doctor_email : string;
  doctor_password : string
}.

(** [class DatabaseSettings(CommonSettings)] *)
Record DatabaseSettings : Type := {
  db_common : CommonSettings;
  pg_host : string;
  pg_user : string;
  pg_password : string;
  pg_database : string;
  pg_port : Z;
  pg_test_database : string;
  pytest_debug : bool;
  async_database_url : option URL.t;
  sync_database_url : option URL.t
}.

(** The environment the settings classes are populated from (process
    environment and env file), after pydantic has coerced each entry to the
    type of the field it belongs to; an environment pydantic rejects yields
    no settings object and has no counterpart here. One optional entry per
    field, named by the field's alias, or by the field's name where it has
    no alias: the two DSN fields, and the three nested fields of
    [Settings], whose entry is the object pydantic builds from the JSON
    value of [DB], [AUTH] or [CLIENT]. *)
Module Env.
Record t : Type := mk {
  ENV_FILE : option string;
  ENV_LOCAL_FILE : option string;
  (* HttpxSettings *)
  MAX_CONNECTIONS : option Z;
  MAX_KEEPALIVE_CONNECTIONS : option Z;
  KEEPALIVE_EXPIRY : option Q;
  TIMEOUT : option Q;
  (* AuthSettings *)
  TOKEN_URL : option string;
  PRIVATE_KEY_PATH : option string;
  PUBLIC_KEY_PATH : option string;
  ALGORITHM : option string;
  ACCESS_TOKEN_EXPIRE_MINUTES : option Z;
  REFRESH_TOKEN_EXPIRE_MINUTES : option Z;
  DOCTOR_USERNAME : option string;
  DOCTOR_EMAIL : option string;
  DOCTOR_PASSWORD : option string;
  (* DatabaseSettings *)
  PG_HOST : option string;
  PG_USER : option string;
  PG_PASSWORD : option string;
  PG_DATABASE : option string;
  PG_PORT : option Z;
  PG_TEST_DATABASE : option string;
  PYTEST_DEBUG : option bool;
  ASYNC_DATABASE_URL : option URL.t;
  SYNC_DATABASE_URL : option URL.t;
  (* Settings *)
  CLIENT_ID : option string;
  CLIENT_SECRET : option string;
  PORT : option Z;
  HOST : option string;
  PAGE_SIZE : option Z;
  MAX_PAGE_SIZE : option Z;
  OPENAPI_URL : option string;
  DB : option DatabaseSettings;
  AUTH : option AuthSettings;
  CLIENT : option HttpxSettings
}.

(** No override at all: every field takes its default. *)
Definition empty : t :=
  mk None None None None None None None None None None
     None None None None None None None None None None
     None None None None None None None None None None None
     None None None.

(** A test run: [PYTEST_DEBUG=true] and nothing else. *)
Definition pytest : t :=
  mk None None None None None None None None None None
     None None None None None None None None None None
     None (Some true) None None None None None None None None None
     None None None.

(** [PORT=9000] and nothing else. *)
Definition port_9000 : t :=
  mk None None None None None None None None None None
     None None None None None None None None None None
     None None None None None None (Some 9000) None None None None
     None None None.
End Env.


(** [CommonSettings()] *)
Definition CommonSettings_init (e : Env.t) : CommonSettings :=
  {| env_file := Field ".env" (Env.ENV_FILE e);
     env_local_file := Field ".env.local" (Env.ENV_LOCAL_FILE e) |}.

(** Truthiness of a Python string. *)
Definition truthy (s : string) : bool :=
  match s with
  | EmptyString => false
  | String _ _ => true
  end.

(** [model_config = SettingsConfigDict(env_file=env_local_file if
    env_local_file else env_file, ...)], evaluated in the class body, where
    the two names are the class-level defaults. *)
Definition model_config_env_file : string :=
  let env_file := ".env" in
  let env_local_file := ".env.local" in
  if truthy env_local_file then env_local_file else env_file.

(** [HttpxSettings()] *)
Definition HttpxSettings_init (e : Env.t) : HttpxSettings :=
  {| httpx_common := CommonSettings_init e;
     max_connections := Field 500 (Env.MAX_CONNECTIONS e);
     max_keepalive_connections := Field 50 (Env.MAX_KEEPALIVE_CONNECTIONS e);
     keepalive_expiry := Field (30 # 1)%Q (Env.KEEPALIVE_EXPIRY e);
     timeout := Field (20 # 1)%Q (Env.TIMEOUT e) |}.

(** [AuthSettings()] *)
Definition AuthSettings_init (e : Env.t) : AuthSettings :=
  {| auth_common := CommonSettings_init e;
     token_url :=
       Field "http://localhost:8000/api/v1/auth/login" (Env.TOKEN_URL e);
     private_key_path :=
       Field "src/apps/certs/jwt-private.pem" (Env.PRIVATE_KEY_PATH e);
     public_key_path :=
       Field "src/apps/certs/jwt-public.pem" (Env.PUBLIC_KEY_PATH e);
     algorithm := Field "RS256" (Env.ALGORITHM e);
     access_token_expire_minutes :=
       Field 60 (Env.ACCESS_TOKEN_EXPIRE_MINUTES e);
     refresh_token_expire_minutes :=
       Field 10000 (Env.REFRESH_TOKEN_EXPIRE_MINUTES e);
     doctor_username := Field "doctor" (Env.DOCTOR_USERNAME e);
     doctor_email := Field "doctor@example.com" (Env.DOCTOR_EMAIL e);
     doctor_password := Field "securepassword" (Env.DOCTOR_PASSWORD e) |}.

Definition minutes_per_day : Z := 24 * 60.

(** [DatabaseSettings.__build_db_dsn] *)
Definition __build_db_dsn (username password host : string) (port : Z)
    (database : string) (async_dsn : bool) : URL.t :=
  let driver_name := "postgresql" in
  let driver_name :=
    if async_dsn then driver_name ++ "+asyncpg" else driver_name in
  URL.create driver_name username password host port database.

Definition set_async_database_url (self : DatabaseSettings) (u : URL.t)
    : DatabaseSettings :=
  {| db_common := db_common self;
     pg_host := pg_host self;
     pg_user := pg_user self;
     pg_password := pg_password self;
     pg_database := pg_database self;
     pg_port := pg_port self;
     pg_test_database := pg_test_database self;
     pytest_debug := pytest_debug self;
     async_database_url := Some u;
     sync_database_url := sync_database_url self |}.

Definition set_sync_database_url (self : DatabaseSettings) (u : URL.t)
    : DatabaseSettings :=
  {| db_common := db_common self;
     pg_host := pg_host self;
     pg_user := pg_user self;
     pg_password := pg_password self;
     pg_database := pg_database self;
     pg_port := pg_port self;
     pg_test_database := pg_test_database self;
     pytest_debug := pytest_debug self;
     async_database_url := async_database_url self;
     sync_database_url := Some u |}.

(** [@model_validator(mode="after") validate_async_database_url] *)
Definition validate_async_database_url (self : DatabaseSettings)
    : DatabaseSettings :=
  let db_name :=
    if pytest_debug self then pg_test_database self else pg_database self in
  set_async_database_url self
    (__build_db_dsn (pg_user self) (pg_password self) (pg_host self)
       (pg_port self) db_name true).

(** [@model_validator(mode="after") validate_sync_database_url];
    [async_dsn] keeps its default [False]. *)
Definition validate_sync_database_url (self : DatabaseSettings)
    : DatabaseSettings :=
  set_sync_database_url self
    (__build_db_dsn (pg_user self) (pg_password self) (pg_host self)
       (pg_port self) (pg_database self) false).

(** The fields as pydantic fills them, before the validators run. The two
    DSN fields have no alias and default to [None]; an entry for one of
    them is a DSN pydantic has accepted as a [PostgresDsn]. *)
Definition DatabaseSettings_fields (e : Env.t) : DatabaseSettings :=
  {| db_common := CommonSettings_init e;
     pg_host := Field "localhost" (Env.PG_HOST e);
     pg_user := Field "postgres" (Env.PG_USER e);
     pg_password := Field "postgres" (Env.PG_PASSWORD e);
     pg_database := Field "postgres" (Env.PG_DATABASE e);
     pg_port := Field 5432 (Env.PG_PORT e);
     pg_test_database := Field "doctor_test" (Env.PG_TEST_DATABASE e);
     pytest_debug := Field false (Env.PYTEST_DEBUG e);
     async_database_url := Env.ASYNC_DATABASE_URL e;
     sync_database_url := Env.SYNC_DATABASE_URL e |}.

(** [DatabaseSettings()]: the fields, then the two "after" validators in
    the order the class body declares them. *)
Definition DatabaseSettings_init (e : Env.t) : DatabaseSettings :=
  validate_sync_database_url
    (validate_async_database_url (DatabaseSettings_fields e)).

(** The database a DSN field names, once the field is set. *)
Definition target (dsn : option URL.t) : option string :=
  option_map URL.database dsn.

(** [class Settings(CommonSettings)] *)
Record Settings : Type := {
  settings_common : CommonSettings;
  db : DatabaseSettings;
  auth : AuthSettings;
  client : HttpxSettings;
  client_id : string;
  client_secret : string;
  port : Z;
  host : string;
  default_page_size : Z;
  max_page_size : Z;
  openapi_url : string
}.

(** The three nested defaults [DatabaseSettings()], [AuthSettings()] and
    [HttpxSettings()] are evaluated once, when the class body of [Settings]
    runs. *)
Record SettingsDefaults : Type := {
  db_default : DatabaseSettings;
  auth_default : AuthSettings;
  client_default : HttpxSettings
}.

Definition Settings_class_body (e : Env.t) : SettingsDefaults :=
  {| db_default := DatabaseSettings_init e;
     auth_default := AuthSettings_init e;
     client_default := HttpxSettings_init e |}.

(** [Settings()]: the three nested fields take the object built from the
    environment's entry when there is one and the class-body default
    otherwise. *)
Definition Settings_init (d : SettingsDefaults) (e : Env.t) : Settings :=
  {| settings_common := CommonSettings_init e;
     db := Field (db_default d) (Env.DB e);
     auth := Field (auth_default d) (Env.AUTH e);
     client := Field (client_default d) (Env.CLIENT e);
     client_id := Field "fastapi" (Env.CLIENT_ID e);
     client_secret := Field "fastapi_secret" (Env.CLIENT_SECRET e);
     port := Field 8000 (Env.PORT e);
     host := Field "localhost" (Env.HOST e);
     default_page_size := Field 30 (Env.PAGE_SIZE e);
     max_page_size := Field 30 (Env.MAX_PAGE_SIZE e);
     openapi_url := Field "/docs" (Env.OPENAPI_URL e) |}.

(** The state of module [core.config] inside one process: the environment
    [Settings()] would read if it ran now, the class attributes of
    [Settings], the [Settings] objects built so far, and the single slot
    [lru_cache] keeps for the argument-less call [get_settings()]. An
    object is known by its address, the position at which it was built;
    the slot and every name bound to an object hold its address, so that
    an assignment through one of them is seen through all. *)
Record ConfigModule : Type := {
  environ : Env.t;
  class_defaults : SettingsDefaults;
  objects : list Settings;
  get_settings_cache : option nat
}.

(** How often [Settings()] has run. *)
Definition Settings_constructed (m : ConfigModule) : nat :=
  length (objects m).

(** The current value of the object at an address. Every address handed
    out is one of an object already built; for any other address the
    value is immaterial and is taken to be the all-defaults settings. *)
Definition deref (m : ConfigModule) (a : nat) : Settings :=
  nth a (objects m) (Settings_init (Settings_class_body Env.empty) Env.empty).

(** [@lru_cache def get_settings()]: a hit returns the stored object, a miss
    runs [return Settings()] and stores the result. *)
Definition get_settings (m : ConfigModule) : nat * ConfigModule :=
  match get_settings_cache m with
  | Some a => (a, m)
  | None =>
      let s := Settings_init (class_defaults m) (environ m) in
      let a := length (objects m) in
      (a, {| environ := environ m;
             class_defaults := class_defaults m;
             objects := objects m ++ [s];
             get_settings_cache := Some a |})
  end.

(** Importing [core.config]: the class bodies run, then the last line
    [settings = get_settings()] binds the module global to the object
    whose address is returned. *)
Definition import_module (e : Env.t) : nat * ConfigModule :=
  get_settings
    {| environ := e;
       class_defaults := Settings_class_body e;
       objects := [];
       get_settings_cache := None |}.

(** The value of the global [settings] right after the import, with the
    module state. *)
Definition import_config (e : Env.t) : Settings * ConfigModule :=
  let (settings, m) := import_module e in (deref m settings, m).

(** What the rest of the process can do with the module afterwards: call
    [get_settings()] again, read the global [settings], serve a login
    request (the controller assigns to nothing in this module), change
    the environment the settings were read from, assign to an attribute
    of the object, reached through the global or through
    [get_settings()] (the model is not frozen), or empty the cache with
    [get_settings.cache_clear()]. An assignment is given by its effect on
    the object. *)
Inductive ConfigOp : Type :=
| call_get_settings
| read_settings
| serve_login
| putenv (e : Env.t)
| setattr_settings (assignment : Settings -> Settings)
| setattr_get_settings (assignment : Settings -> Settings)
| cache_clear.

Definition clears_cache (op : ConfigOp) : bool :=
  match op with
  | cache_clear => true
  | _ => false
  end.

Definition assigns (op : ConfigOp) : bool :=
  match op with
  | setattr_settings _ | setattr_get_settings _ => true
  | _ => false
  end.

Definition set_environ (m : ConfigModule) (e : Env.t) : ConfigModule :=
  {| environ := e;
     class_defaults := class_defaults m;
     objects := objects m;
     get_settings_cache := get_settings_cache m |}.

Definition set_cache (m : ConfigModule) (slot : option nat) : ConfigModule :=
  {| environ := environ m;
     class_defaults := class_defaults m;
     objects := objects m;
     get_settings_cache := slot |}.

Fixpoint update_nth {A : Type} (a : nat) (f : A -> A) (l : list A)
    : list A :=
  match l, a with
  | [], _ => []
  | x :: l', O => f x :: l'
  | x :: l', S a' => x :: update_nth a' f l'
  end.

(** An assignment changes the object in place. *)
Definition setattr (m : ConfigModule) (a : nat)
    (assignment : Settings -> Settings) : ConfigModule :=
  {| environ := environ m;
     class_defaults := class_defaults m;
     objects := update_nth a assignment (objects m);
     get_settings_cache := get_settings_cache m |}.

(** One operation, for a module whose global [settings] holds the address
    [settings]: the object it reaches, if any, as address and current
    value, and the module state it leaves. *)
Definition config_step (settings : nat) (m : ConfigModule) (op : ConfigOp)
    : option (nat * Settings) * ConfigModule :=
  match op with
  | call_get_settings =>
      let (a, m') := get_settings m in (Some (a, deref m' a), m')
  | read_settings => (Some (settings, deref m settings), m)
  | serve_login => (None, m)
  | putenv e => (None, set_environ m e)
  | setattr_settings assignment =>
      (Some (settings, deref m settings), setattr m settings assignment)
  | setattr_get_settings assignment =>
      let (a, m') := get_settings m in
      (Some (a, deref m' a), setattr m' a assignment)
  | cache_clear => (None, set_cache m None)
  end.

Fixpoint config_run (settings : nat) (m : ConfigModule)
    (ops : list ConfigOp) : list (nat * Settings) * ConfigModule :=
  match ops with
  | [] => ([], m)
  | op :: ops' =>
      let (o, m') := config_step settings m op in
      let (obs, m'') := config_run settings m' ops' in
      (match o with Some s => s :: obs | None => obs end, m'')
  end.

(** The assignment [settings.port = v]. *)
Definition set_port (v : Z) (s : Settings) : Settings :=
  {| settings_common := settings_common s;
     db := db s;
     auth := auth s;
     client := client s;
     client_id := client_id s;
     client_secret := client_secret s;
     port := v;
     host := host s;
     default_page_size := default_page_size s;
     max_page_size := max_page_size s;
     openapi_url := openapi_url s |}.

(** ** Token Codec

    The controller imports [Security] from [core.security], whose source is
    not among the files verified here; the codec behind it is modelled from
    §4.1 and §4.2 of the specification. *)

(** Modelled from the spec: the token kinds [Access|Refresh] of the missing
    [core.security], §3. *)
Inductive TokenKind : Type := Access | Refresh.

Definition TokenKind_eqb (a b : TokenKind) : bool :=
  match a, b with
  | Access, Access | Refresh, Refresh => true
  | _, _ => false
  end.

(** Modelled from the spec: the claims set of a token of the missing
    [core.security], §3 and §4.2,
    [{sub=subject, kind, iat=now, exp=now+ttl}]. Timestamps and durations
    are whole seconds. *)
Record Claims : Type := {
  sub : string;
  kind : TokenKind;
  iat : Z;
  exp : Z
}.

(** Modelled from the spec: the three error kinds of [verify] in the
    missing [core.security], §4.2. *)
Inductive TokenError : Type :=
| TokenInvalidError
| TokenExpiredError
| TokenKindMismatchError.

(** Modelled from the spec: §8 speaks of the "signature segment" of a
    token; segments are joined by a separator. Does the string contain
    it? *)
Fixpoint has_dot (s : string) : bool :=
  match s with
  | EmptyString => false
  | String c s' => if Ascii.eqb c "." then true else has_dot s'
  end.

(** Modelled from the spec: what the missing [core.security] takes from
    its cryptographic library, §4.2: an asymmetric signature scheme
    ([RS256] in [AuthSettings]) and an encoding of the claims as one
    segment of the token. As in the compact form of a signed web token, a
    segment never contains the separator. *)
Class TokenBackend : Type := {
  PrivateKey : Type;
  PublicKey : Type;
  sign : PrivateKey -> string -> string;
  check_signature : PublicKey -> string -> string -> bool;
  encode_claims : Claims -> string;
  decode_claims : string -> option Claims;
  decode_encode_claims : forall c, decode_claims (encode_claims c) = Some c;
  encode_claims_segment : forall c, has_dot (encode_claims c) = false
}.

(** Modelled from the spec: the result of [load()] of the missing Key
    Material Provider, §4.1. *)
Record KeyPair `{TokenBackend} : Type := {
  private_key : PrivateKey;
  public_key : PublicKey
}.

(** Modelled from the spec: the condition under which [load()] of the
    missing Key Material Provider does not fail with [KeyLoadError], §4.1:
    the two keys belong together, so that what the private key signs the
    public key accepts. *)
Definition matched `{TokenBackend} (kp : KeyPair) : Prop :=
  forall msg,
    check_signature (public_key kp) msg (sign (private_key kp) msg) = true.

(** Modelled from the spec: the parsing step of the missing [verify],
    §4.2. A token string is the claims segment, the separator and the
    signature segment; [split_token] cuts at the first separator. *)
Fixpoint split_token (token : string) : option (string * string) :=
  match token with
  | EmptyString => None
  | String c rest =>
      if Ascii.eqb c "." then Some (EmptyString, rest)
      else
        match split_token rest with
        | Some (payload, signature) => Some (String c payload, signature)
        | None => None
        end
  end.

(** Modelled from the spec: [mint(subject, kind, ttl) -> TokenString] of
    the missing [core.security], §4.2, with the clock reading [now] made
    explicit. *)
Definition mint `{TokenBackend} (kp : KeyPair) (now : Z) (subject : string)
    (kind : TokenKind) (ttl : Z) : string :=
  let claims :=
    {| sub := subject; kind := kind; iat := now; exp := now + ttl |} in
  let payload := encode_claims claims in
  payload ++ "." ++ sign (private_key kp) payload.

(** Modelled from the spec: the parsing step of the missing [verify],
    §4.2: the segments and the claims of a token string, whoever signed
    it. *)
Definition parse_token `{TokenBackend} (token : string)
    : option (string * string * Claims) :=
  match split_token token with
  | None => None
  | Some (payload, signature) =>
      match decode_claims payload with
      | None => None
      | Some claims => Some (payload, signature, claims)
      end
  end.

(** The claims a token string carries. *)
Definition claims_of `{TokenBackend} (token : string) : option Claims :=
  option_map snd (parse_token token).

(** Modelled from the spec: [verify(token, expected_kind) -> UserId] of the
    missing [core.security], §4.2:
    "parses, checks signature against the public key, checks [exp > now],
    checks [kind == expected_kind]", in this order, failing with
    [TokenInvalidError] (bad signature/malformed), [TokenExpiredError]
    ([exp <= now]) or [TokenKindMismatchError]. The clock-skew tolerance
    §4.2 recommends is not part of this contract and is left out. *)
Definition verify `{TokenBackend} (kp : KeyPair) (now : Z) (token : string)
    (expected_kind : TokenKind) : TokenError + string :=
  match parse_token token with
  | None => inl TokenInvalidError
  | Some (payload, signature, claims) =>
      if negb (check_signature (public_key kp) payload signature)
      then inl TokenInvalidError
      else if negb (exp claims >? now)
      then inl TokenExpiredError
      else if negb (TokenKind_eqb (kind claims) expected_kind)
      then inl TokenKindMismatchError
      else inr (sub claims)
  end.

(** ** Credential Authenticator

    The controller receives [service] and [uow] by dependency injection
    from [api.dependencies], whose source is not among the files verified
    here; the authenticator behind them is modelled from §4.3, §6 and §7 of
    the specification. *)

(** What the controller and its collaborators take from modules whose
    source is not at hand, kept as parameters: the type of user ids with
    Python's [str()] on it, the cookie name [core.constants.REFRESH], the
    password hasher [PasswordHasher.verify(secret, hash)] and the one
    message every failed login is answered with. *)
Class Collaborators : Type := {
  UserId : Type;
  str : UserId -> string;
  REFRESH : string;
  PasswordHasher_verify : string -> string -> bool;
  invalid_credentials_message : string
}.

Module User.
(** Modelled from the spec: [UserRecord], owned by the missing user
    store, §3. *)
Record t `{Collaborators} : Type := {
  id : UserId;
  username : string;
  email : string;
  password_hash : string
}.
End User.

(** Modelled from the spec: the two ways [authenticate] of the missing
    auth service fails, §4.3. *)
Inductive AuthError : Type :=
| UserNotFoundError
| InvalidCredentialsError.

(** Modelled from the spec: the identifier classification of the missing
    auth service, §4.3: does the identifier contain "@"? *)
Fixpoint has_at (s : string) : bool :=
  match s with
  | EmptyString => false
  | String c s' => if Ascii.eqb c "@" then true else has_at s'
  end.

(** Modelled from the spec: [UserStore.find_by_username_or_email] of the
    missing user store, §4.3 and §6: the presence of "@" in the identifier
    decides which field is queried. The store is the table of user
    records. *)
Definition find_by_username_or_email `{Collaborators} (store : list User.t)
    (identifier : string) : option User.t :=
  if has_at identifier
  then find (fun u => String.eqb (User.email u) identifier) store
  else find (fun u => String.eqb (User.username u) identifier) store.

(** Modelled from the spec: [authenticate(identifier, secret)] of the
    missing auth service, §4.3. The record is returned rather than its id
    alone, because the controller reads [user.id] from the result. *)
Definition authenticate `{Collaborators} (store : list User.t)
    (identifier secret : string) : AuthError + User.t :=
  match find_by_username_or_email store identifier with
  | None => inl UserNotFoundError
  | Some user =>
      if PasswordHasher_verify secret (User.password_hash user)
      then inr user
      else inl InvalidCredentialsError
  end.

(** Modelled from the spec: the exception the missing auth service
    raises, §7: what a failed request shows to the caller, error kind,
    status and message. *)
Record HTTPError : Type := {
  error : AuthError;
  status_code : Z;
  message : string
}.

(** Modelled from the spec: the error mapping of the missing auth
    service, §7: [UserNotFoundError] and [InvalidCredentialsError] are
    "merged into a single externally-visible [InvalidCredentialsError] ->
    401". *)
Definition surfaced `{Collaborators} (e : AuthError) : HTTPError :=
  match e with
  | UserNotFoundError | InvalidCredentialsError =>
      {| error := InvalidCredentialsError;
         status_code := 401;
         message := invalid_credentials_message |}
  end.

(** ** api/v1/controllers/auth.py *)

(** One [Set-Cookie] header, with the attributes the controller passes to
    [Response.set_cookie]. *)
Module Cookie.
Record t : Type := {
  key : string;
  value : string;
  httponly : bool;
  secure : bool
}.
End Cookie.

(** [starlette.responses.Response], as far as the controller touches it. *)
Record Response : Type := {
  cookies : list Cookie.t
}.

(** [LoginRequestSchema] *)
Record LoginRequestSchema : Type := {
  credentials : string;
  password : string
}.

(** [TokenInfoSchema] *)
Record TokenInfoSchema : Type := {
  access_token : string
}.

(** What a request handler reads but does not change: the settings, the
    loaded key pair and the clock, given as the sequence of its readings. *)
Record World `{TokenBackend} : Type := {
  settings : Settings;
  key_pair : KeyPair;
  clock : nat -> Z
}.

(** What a request handler changes: the injected [Response] object, plus
    two observations of the run, the tokens minted so far and the number of
    clock readings taken. *)
Record HandlerState : Type := {
  response : Response;
  minted : list string;
  clock_reads : nat
}.

(** Handler code: it may raise, and what it did to the state before
    raising stays done. *)
Definition M (A : Type) : Type :=
  HandlerState -> (HTTPError + A) * HandlerState.

Definition ret {A : Type} (a : A) : M A := fun st => (inr a, st).

Definition raise {A : Type} (e : HTTPError) : M A := fun st => (inl e, st).

Definition bind {A B : Type} (c : M A) (k : A -> M B) : M B :=
  fun st =>
    match c st with
    | (inl e, st') => (inl e, st')
    | (inr a, st') => k a st'
    end.

Declare Scope handler_scope.
Delimit Scope handler_scope with handler.
Notation "x <- c ;; k" := (bind c (fun x => k))
  (at level 61, c at next level, right associativity) : handler_scope.
Notation "c ;; k" := (bind c (fun _ => k))
  (at level 61, right associativity) : handler_scope.

(** Modelled from the spec: [service.user_authenticate(uow, credentials,
    password)] of the missing auth service, §4.3 and §7: the authenticator
    run against the unit of work's user table; a failure is raised in its
    surfaced form. *)
Definition user_authenticate `{Collaborators} (uow : list User.t)
    (credentials password : string) : M User.t :=
  match authenticate uow credentials password with
  | inl e => raise (surfaced e)
  | inr user => ret user
  end.

Module Security.
(** Modelled from the spec: what the two entry points of the missing
    [core.security.Security] share: the Session Issuer "calls Token Codec
    twice (access, refresh)", §2 and §4.4, with the TTLs of
    [AuthSettings], which are minutes. Each call reads the clock once. *)
Definition create_token `{TokenBackend} (w : World) (kind : TokenKind)
    (expire_minutes : Z) (subject : string) : M string :=
  fun st =>
    let now := clock w (clock_reads st) in
    let token := mint (key_pair w) now subject kind (expire_minutes * 60) in
    (inr token,
     {| response := response st;
        minted := minted st ++ [token];
        clock_reads := S (clock_reads st) |}).

(** Modelled from the spec: [Security.create_access_token(subject)] of the
    missing [core.security], §4.2 and §4.4. *)
Definition create_access_token `{TokenBackend} (w : World)
    (subject : string) : M string :=
  create_token w Access
    (access_token_expire_minutes (auth (settings w))) subject.

(** Modelled from the spec: [Security.create_refresh_token(subject)] of
    the missing [core.security], §4.2 and §4.4. *)
Definition create_refresh_token `{TokenBackend} (w : World)
    (subject : string) : M string :=
  create_token w Refresh
    (refresh_token_expire_minutes (auth (settings w))) subject.
End Security.

(** [response.set_cookie(key=..., value=..., httponly=..., secure=...)] *)
Definition set_cookie (key value : string) (httponly secure : bool)
    : M unit :=
  fun st =>
    let cookie :=
      {| Cookie.key := key; Cookie.value := value;
         Cookie.httponly := httponly; Cookie.secure := secure |} in
    (inr tt,
     {| response := {| cookies := cookies (response st) ++ [cookie] |};
        minted := minted st;
        clock_reads := clock_reads st |}).

(** [async def login(body, uow, service, response) -> TokenInfoSchema].
    The injected [response] is the one of the handler state, [service] is
    the authenticator above, [uow] its user table. *)
Definition login `{Collaborators} `{TokenBackend} (w : World)
    (body : LoginRequestSchema) (uow : list User.t) : M TokenInfoSchema :=
  (user <- user_authenticate uow (credentials body) (password body) ;;
   access_token <- Security.create_access_token w (str (User.id user)) ;;
   refresh_token <- Security.create_refresh_token w (str (User.id user)) ;;
   set_cookie REFRESH refresh_token true false ;;
   ret {| access_token := access_token |})%handler.

(** What goes on the wire. *)
Inductive Body : Type :=
| TokenInfo (schema : TokenInfoSchema)
| ErrorDetail (kind : AuthError) (message : string).

Record HTTPResponse : Type := {
  status : Z;
  body : Body;
  set_cookie_headers : list Cookie.t
}.

(** The state a request starts in: a fresh [Response], nothing minted. *)
Definition fresh : HandlerState :=
  {| response := {| cookies := [] |}; minted := []; clock_reads := 0 |}.

(** [@auth.post(path="/login", ...)]: the route declares no status code,
    so a returned schema is sent with 200 and with the headers collected on
    the injected [Response]; a raised error is sent with its own status and
    the injected [Response] is dropped. *)
Definition POST_login `{Collaborators} `{TokenBackend} (w : World)
    (uow : list User.t) (request : LoginRequestSchema) : HTTPResponse :=
  match login w request uow fresh with
  | (inr schema, st) =>
      {| status := 200;
         body := TokenInfo schema;
         set_cookie_headers := cookies (response st) |}
  | (inl e, _) =>
      {| status := status_code e;
         body := ErrorDetail (error e) (message e);
         set_cookie_headers := [] |}
  end.

(** ** A reference instance of the collaborators

    A small executable stand-in for the cryptographic library, the claims
    encoding, the password hasher and the user ids, on which the controller
    can be run. It is not secure and is not meant to be: it shows that the
    interfaces above can be implemented and gives the theorems below
    concrete inputs. *)
Module Reference.

(** Segment-safe text: the separator is written [~d], the escape
    character [~~]. *)
Fixpoint escape (s : string) : string :=
  match s with
  | EmptyString => EmptyString
  | String c s' =>
      if Ascii.eqb c "." then String "~" (String "d" (escape s'))
      else if Ascii.eqb c "~" then String "~" (String "~" (escape s'))
      else String c (escape s')
  end.

Fixpoint unescape (s : string) : string :=
  match s with
  | EmptyString => EmptyString
  | String c s' =>
      if Ascii.eqb c "~" then
        match s' with
        | EmptyString => EmptyString
        | String d s'' =>
            String (if Ascii.eqb d "d" then "."%char else "~"%char)
                   (unescape s'')
        end
      else String c (unescape s')
  end.

(** A positive number in binary, lowest bit first, closed by [;]. *)
Fixpoint write_pos (p : positive) : string :=
  match p with
  | xH => ";"
  | xO p' => String "0" (write_pos p')
  | xI p' => String "1" (write_pos p')
  end.

(** An integer as a sign followed by its magnitude. *)
Definition write_int (z : Z) : string :=
  match z with
  | Z0 => "0"
  | Zpos p => String "+" (write_pos p)
  | Zneg p => String "-" (write_pos p)
  end.

Fixpoint read_pos (s : string) : option (positive * string) :=
  match s with
  | EmptyString => None
  | String c s' =>
      if Ascii.eqb c ";" then Some (xH, s')
      else
        match read_pos s' with
        | None => None
        | Some (p, rest) =>
            if Ascii.eqb c "0" then Some (xO p, rest)
            else if Ascii.eqb c "1" then Some (xI p, rest)
            else None
        end
  end.

Definition read_int (s : string) : option (Z * string) :=
  match s with
  | EmptyString => None
  | String c s' =>
      if Ascii.eqb c "0" then Some (Z0, s')
      else
        match read_pos s' with
        | None => None
        | Some (p, rest) =>
            if Ascii.eqb c "+" then Some (Zpos p, rest)
            else if Ascii.eqb c "-" then Some (Zneg p, rest)
            else None
        end
  end.

Definition encode_claims (c : Claims) : string :=
  String (match kind c with Access => "A"%char | Refresh => "R"%char end)
    (write_int (iat c) ++ write_int (exp c) ++ escape (sub c)).

Definition decode_claims (s : string) : option Claims :=
  match s with
  | EmptyString => None
  | String k s1 =>
      match read_int s1 with
      | None => None
      | Some (i, s2) =>
          match read_int s2 with
          | None => None
          | Some (e, s3) =>
              if Ascii.eqb k "A"
              then Some {| sub := unescape s3; kind := Access;
                           iat := i; exp := e |}
              else if Ascii.eqb k "R"
              then Some {| sub := unescape s3; kind := Refresh;
                           iat := i; exp := e |}
              else None
          end
      end
  end.

(** A keyed tag in place of a signature; the same key signs and checks. *)
Definition sign (key msg : string) : string := key ++ msg.

Definition check_signature (key msg signature : string) : bool :=
  String.eqb signature (key ++ msg).

(** A recognisable stand-in for a salted password hash. *)
Definition hash_password (secret : string) : string := "$ref$" ++ secret.

Definition PasswordHasher_verify (secret hash : string) : bool :=
  String.eqb hash (hash_password secret).

End Reference.

(** * Properties *)

(** ** Settings *)

Lemma Field_default {A : Type} (d : A) : Field d None = d.
Proof. reflexivity. Qed.

Lemma Field_override {A : Type} (d v : A) : Field d (Some v) = v.
Proof. reflexivity. Qed.

(** C8: with no override in the environment, the access-token TTL is 60
    minutes and the refresh-token TTL is 10000 minutes, which is 7 days to
    the nearest day and within one percent of [7 * 24 * 60] minutes, and
    the refresh TTL is strictly the larger of the two. *)
Theorem default_token_ttls :
  let a := auth (fst (import_config Env.empty)) in
  access_token_expire_minutes a = 60 /\
  refresh_token_expire_minutes a = 10000 /\
  (refresh_token_expire_minutes a + minutes_per_day / 2) / minutes_per_day
    = 7 /\
  100 * Z.abs (refresh_token_expire_minutes a - 7 * minutes_per_day)
    <= 7 * minutes_per_day /\
  access_token_expire_minutes a < refresh_token_expire_minutes a.
Proof.
  cbn. unfold minutes_per_day. repeat split; try reflexivity; lia.
Qed.

Lemma target_async (self : DatabaseSettings) :
  target (async_database_url (validate_async_database_url self)) =
  Some (if pytest_debug self then pg_test_database self else pg_database self).
Proof. reflexivity. Qed.

Lemma target_sync (self : DatabaseSettings) :
  target (sync_database_url (validate_sync_database_url self)) =
  Some (pg_database self).
Proof. reflexivity. Qed.

(** C10: when [pytest_debug] is set, the async DSN names
    [pg_test_database] while the sync DSN still names [pg_database]; and in
    any configuration the two DSNs name the same database only if
    [pytest_debug] is off or the two names coincide. *)
Theorem pytest_debug_splits_dsn_targets (e : Env.t) :
  let s := DatabaseSettings_init e in
  (pytest_debug s = true ->
   target (async_database_url s) = Some (pg_test_database s) /\
   target (sync_database_url s) = Some (pg_database s)) /\
  (target (async_database_url s) = target (sync_database_url s) ->
   pytest_debug s = false \/ pg_test_database s = pg_database s).
Proof.
  cbn zeta. unfold DatabaseSettings_init.
  set (f := DatabaseSettings_fields e).
  change (pytest_debug (validate_sync_database_url
                          (validate_async_database_url f)))
    with (pytest_debug f).
  change (pg_test_database (validate_sync_database_url
                              (validate_async_database_url f)))
    with (pg_test_database f).
  change (pg_database (validate_sync_database_url
                         (validate_async_database_url f)))
    with (pg_database f).
  change (async_database_url (validate_sync_database_url
                                (validate_async_database_url f)))
    with (async_database_url (validate_async_database_url f)).
  rewrite target_async, target_sync.
  split.
  - intros Hdebug. rewrite Hdebug. split; reflexivity.
  - destruct (pytest_debug f); intros Hsame.
    + right. injection Hsame as Hsame. exact Hsame.
    + left. reflexivity.
Qed.

Lemma pytest_debug_splits_dsn_targets_witness :
  (target (async_database_url (DatabaseSettings_init Env.pytest))
     = Some "doctor_test" /\
   target (sync_database_url (DatabaseSettings_init Env.pytest))
     = Some "postgres") /\
  (pytest_debug (DatabaseSettings_init Env.empty) = false \/
   pg_test_database (DatabaseSettings_init Env.empty)
     = pg_database (DatabaseSettings_init Env.empty)).
Proof.
  split.
  - apply (pytest_debug_splits_dsn_targets Env.pytest). reflexivity.
  - apply (pytest_debug_splits_dsn_targets Env.empty). reflexivity.
Defined.

Lemma update_nth_length {A : Type} (a : nat) (f : A -> A) (l : list A) :
  length (update_nth a f l) = length l.
Proof.
  revert a. induction l as [|x l IH]; intros [|a]; cbn; auto.
Qed.

(** As long as the cache is not cleared, the slot keeps the address it
    holds, no further object is built, and every access reaches the object
    at that address; if moreover nothing is assigned, no object changes. *)
Lemma config_run_cached (settings : nat) (ops : list ConfigOp) :
  forall m,
    get_settings_cache m = Some settings ->
    existsb clears_cache ops = false ->
    Forall (fun o => fst o = settings) (fst (config_run settings m ops)) /\
    get_settings_cache (snd (config_run settings m ops)) = Some settings /\
    Settings_constructed (snd (config_run settings m ops))
      = Settings_constructed m /\
    (existsb assigns ops = false ->
     Forall (fun o => snd o = deref m settings)
       (fst (config_run settings m ops))).
Proof.
  induction ops as [|op ops IH]; intros m Hm Hkeep; cbn [config_run].
  - cbn. auto.
  - cbn [existsb] in Hkeep. apply orb_false_elim in Hkeep as [Hop Hkeep].
    destruct op; cbn [config_step clears_cache] in *; try discriminate Hop.
    + unfold get_settings. rewrite Hm.
      destruct (config_run settings m ops) as [obs m''] eqn:E.
      specialize (IH m Hm Hkeep). rewrite E in IH. cbn in *.
      destruct IH as (Haddr & Hc & Hn & Hval). repeat split; auto.
    + destruct (config_run settings m ops) as [obs m''] eqn:E.
      specialize (IH m Hm Hkeep). rewrite E in IH. cbn in *.
      destruct IH as (Haddr & Hc & Hn & Hval). repeat split; auto.
    + destruct (config_run settings m ops) as [obs m''] eqn:E.
      specialize (IH m Hm Hkeep). rewrite E in IH. cbn in *.
      exact IH.
    + destruct (config_run settings (set_environ m e) ops)
        as [obs m''] eqn:E.
      specialize (IH (set_environ m e) Hm Hkeep). rewrite E in IH.
      cbn in *. destruct IH as (Haddr & Hc & Hn & Hval).
      repeat split; auto.
    + destruct (config_run settings (setattr m settings assignment) ops)
        as [obs m''] eqn:E.
      specialize (IH (setattr m settings assignment) Hm Hkeep).
      rewrite E in IH. cbn in *.
      destruct IH as (Haddr & Hc & Hn & Hval).
      unfold Settings_constructed in *. cbn in Hn.
      rewrite update_nth_length in Hn.
      repeat split; auto. discriminate.
    + unfold get_settings. rewrite Hm.
      destruct (config_run settings (setattr m settings assignment) ops)
        as [obs m''] eqn:E.
      specialize (IH (setattr m settings assignment) Hm Hkeep).
      rewrite E in IH. cbn in *.
      destruct IH as (Haddr & Hc & Hn & Hval).
      unfold Settings_constructed in *. cbn in Hn.
      rewrite update_nth_length in Hn.
      repeat split; auto. discriminate.
Qed.

(** C9, as amended: the settings object is built once, when the module
    is imported. Whatever sequence of [get_settings()] calls, reads of the
    global, login requests, attribute assignments and changes of the
    environment follows, as long as [get_settings.cache_clear()] is not
    among them, every access reaches that one object, the cache still
    holds it and [Settings()] has run exactly once; and as long as nothing
    assigns to its attributes either, its value on every access is the
    value the first call returned. *)
Theorem settings_built_once (e : Env.t) (ops : list ConfigOp) :
  existsb clears_cache ops = false ->
  let settings := fst (import_module e) in
  let run := config_run settings (snd (import_module e)) ops in
  Forall (fun o => fst o = settings) (fst run) /\
  get_settings_cache (snd run) = Some settings /\
  Settings_constructed (snd run) = 1%nat /\
  (existsb assigns ops = false ->
   Forall (fun o => snd o = fst (import_config e)) (fst run)).
Proof.
  intros Hkeep. cbn zeta.
  apply (config_run_cached (fst (import_module e)) ops
           (snd (import_module e)) eq_refl Hkeep).
Qed.

Lemma settings_built_once_witness :
  let ops :=
    [call_get_settings; putenv Env.pytest; read_settings; serve_login;
     call_get_settings] in
  let settings := fst (import_module Env.empty) in
  let run := config_run settings (snd (import_module Env.empty)) ops in
  Forall (fun o => fst o = settings) (fst run) /\
  get_settings_cache (snd run) = Some settings /\
  Settings_constructed (snd run) = 1%nat /\
  Forall (fun o => snd o = fst (import_config Env.empty)) (fst run).
Proof.
  cbv zeta.
  destruct (settings_built_once Env.empty
              [call_get_settings; putenv Env.pytest; read_settings;
               serve_login; call_get_settings] eq_refl)
    as (Haddr & Hslot & Hcount & Hvalue).
  split; [exact Haddr|]. split; [exact Hslot|]. split; [exact Hcount|].
  exact (Hvalue eq_refl).
Defined.

(** C9, as stated, fails. The object is not frozen: after the assignment
    [settings.port = 1234] a call of [get_settings()] returns the object
    built at import with a value that is no longer the one the first call
    returned. And the cache is not pinned: after
    [get_settings.cache_clear()] the next call builds a second object,
    here from a changed environment, so that it differs from the first. *)
Lemma settings_not_frozen_cache_not_pinned :
  let settings := fst (import_module Env.empty) in
  let m := snd (import_module Env.empty) in
  let first := fst (import_config Env.empty) in
  (exists changed,
      fst (config_run settings m
             [setattr_settings (set_port 1234); call_get_settings])
        = [(settings, first); (settings, changed)] /\
      changed <> first) /\
  (exists rebuilt,
      fst (config_run settings m
             [putenv Env.port_9000; cache_clear; call_get_settings])
        = [(1%nat, rebuilt)] /\
      rebuilt <> first /\
      Settings_constructed
        (snd (config_run settings m
                [putenv Env.port_9000; cache_clear; call_get_settings]))
        = 2%nat).
Proof.
  cbv zeta. split.
  - eexists. split; [reflexivity|].
    intros Heq. apply (f_equal port) in Heq. cbv in Heq. lia.
  - eexists. split; [reflexivity|]. split; [|reflexivity].
    intros Heq.
    apply (f_equal port) in Heq.
    cbv in Heq. lia.
Qed.

(** ** Token strings *)

Lemma has_dot_app (a b : string) :
  has_dot (a ++ b) = has_dot a || has_dot b.
Proof.
  induction a as [|c a IH]; cbn; [reflexivity|].
  destruct (Ascii.eqb c "."); [reflexivity | exact IH].
Qed.

(** Cutting a token at the first separator gives back the two segments it
    was joined from, as long as the first is a segment. *)
Lemma split_token_join (payload signature : string) :
  has_dot payload = false ->
  split_token (payload ++ "." ++ signature) = Some (payload, signature).
Proof.
  induction payload as [|c p IH]; cbn in *; intros Hseg; [reflexivity|].
  destruct (Ascii.eqb c "."); [discriminate|].
  rewrite (IH Hseg). reflexivity.
Qed.

Lemma split_token_nonempty (token : string) (segments : string * string) :
  split_token token = Some segments -> token <> "".
Proof. intros Hsplit ->. discriminate Hsplit. Qed.

Section Codec.
Context `{TokenBackend}.
Variable kp : KeyPair.

Lemma parse_token_mint (now : Z) (subject : string) (k : TokenKind)
    (ttl : Z) :
  let claims :=
    {| sub := subject; kind := k; iat := now; exp := now + ttl |} in
  parse_token (mint kp now subject k ttl) =
  Some (encode_claims claims,
        sign (private_key kp) (encode_claims claims),
        claims).
Proof.
  cbn zeta. unfold parse_token, mint.
  rewrite split_token_join by apply encode_claims_segment.
  rewrite decode_encode_claims. reflexivity.
Qed.

Lemma mint_nonempty (now : Z) (subject : string) (k : TokenKind)
    (ttl : Z) :
  mint kp now subject k ttl <> "".
Proof.
  unfold mint.
  apply (split_token_nonempty _ _
           (split_token_join _ _ (encode_claims_segment _))).
Qed.

(** What [verify] answers on a token [mint] produced, whatever the two
    clock readings and the kind asked for. *)
Lemma verify_mint (Hkp : matched kp) (minted_at now : Z)
    (subject : string) (k expected_kind : TokenKind) (ttl : Z) :
  verify kp now (mint kp minted_at subject k ttl) expected_kind =
  if minted_at + ttl <=? now then inl TokenExpiredError
  else if TokenKind_eqb k expected_kind then inr subject
  else inl TokenKindMismatchError.
Proof.
  unfold verify. rewrite parse_token_mint. rewrite Hkp. cbn.
  rewrite Z.gtb_ltb, Z.ltb_antisym, negb_involutive.
  destruct (minted_at + ttl <=? now); [reflexivity|].
  destruct (TokenKind_eqb k expected_kind); reflexivity.
Qed.
End Codec.

Module ReferenceLaws.
Import Reference.

Lemma unescape_escape (s : string) : unescape (escape s) = s.
Proof.
  induction s as [|c s IH]; cbn; [reflexivity|].
  destruct (Ascii.eqb_spec c ".") as [->|Hdot]; cbn.
  - rewrite IH. reflexivity.
  - destruct (Ascii.eqb_spec c "~") as [->|Hesc]; cbn.
    + rewrite IH. reflexivity.
    + destruct (Ascii.eqb_spec c "~"); [contradiction|].
      rewrite IH. reflexivity.
Qed.

Lemma escape_segment (s : string) : has_dot (escape s) = false.
Proof.
  induction s as [|c s IH]; cbn; [reflexivity|].
  destruct (Ascii.eqb_spec c ".") as [->|Hdot]; cbn; [exact IH|].
  destruct (Ascii.eqb_spec c "~") as [->|Hesc]; cbn; [exact IH|].
  destruct (Ascii.eqb_spec c "."); [contradiction | exact IH].
Qed.

Lemma read_pos_write_pos (p : positive) (rest : string) :
  read_pos (write_pos p ++ rest) = Some (p, rest).
Proof.
  induction p as [p IH|p IH|]; cbn; [| |reflexivity];
    rewrite IH; reflexivity.
Qed.

Lemma write_pos_segment (p : positive) : has_dot (write_pos p) = false.
Proof. induction p as [p IH|p IH|]; cbn; auto. Qed.

Lemma read_int_write_int (z : Z) (rest : string) :
  read_int (write_int z ++ rest) = Some (z, rest).
Proof.
  destruct z as [|p|p]; cbn; [reflexivity| |];
    rewrite read_pos_write_pos; reflexivity.
Qed.

Lemma write_int_segment (z : Z) : has_dot (write_int z) = false.
Proof. destruct z as [|p|p]; cbn; auto using write_pos_segment. Qed.

Lemma decode_encode_claims (c : Claims) :
  decode_claims (encode_claims c) = Some c.
Proof.
  destruct c as [s k i e]. unfold encode_claims, decode_claims.
  cbn [sub kind iat exp].
  rewrite !read_int_write_int, unescape_escape.
  destruct k; reflexivity.
Qed.

Lemma encode_claims_segment (c : Claims) :
  has_dot (encode_claims c) = false.
Proof.
  unfold encode_claims. cbn [has_dot].
  replace (Ascii.eqb match kind c with Access => "A" | Refresh => "R" end
             ".")%char with false by (destruct (kind c); reflexivity).
  rewrite !has_dot_app, !write_int_segment, escape_segment. reflexivity.
Qed.

Definition backend : TokenBackend :=
  Build_TokenBackend string string sign check_signature
    encode_claims decode_claims
    decode_encode_claims encode_claims_segment.

Definition keys : @KeyPair backend := @Build_KeyPair backend "k" "k".

Lemma keys_matched : @matched backend keys.
Proof. intros msg. cbn. apply String.eqb_refl. Qed.

(** User ids are integers, printed in decimal. *)
Definition collaborators : Collaborators :=
  Build_Collaborators Z (fun n => NilZero.string_of_int (Z.to_int n))
    "refresh_token" PasswordHasher_verify "Invalid credentials".

(** The seeded account of [AuthSettings]: [doctor_username],
    [doctor_email] and [doctor_password]. *)
Definition doctor : @User.t collaborators :=
  let a := AuthSettings_init Env.empty in
  @User.Build_t collaborators 1 (doctor_username a) (doctor_email a)
    (hash_password (doctor_password a)).

Definition seeded : list (@User.t collaborators) := [doctor].

(** Default settings, the reference keys, a clock that advances by one
    second per reading. *)
Definition world : @World backend :=
  @Build_World backend (fst (import_config Env.empty)) keys
    (fun n => 1700000000 + Z.of_nat n).
End ReferenceLaws.

(** ** Token Codec *)

(** C5: round trip. For every subject, kind and positive ttl, a token
    minted at [minted_at] and verified for the same kind at any later time
    [now] before the ttl has elapsed yields the subject. *)
Theorem verify_mint_roundtrip `{TokenBackend} (kp : KeyPair)
    (subject : string) (k : TokenKind) (ttl minted_at now : Z) :
  matched kp ->
  0 < ttl ->
  minted_at <= now < minted_at + ttl ->
  verify kp now (mint kp minted_at subject k ttl) k = inr subject.
Proof.
  intros Hkp _ [_ Hlive]. rewrite verify_mint by exact Hkp.
  destruct (Z.leb_spec (minted_at + ttl) now); [lia|].
  destruct k; reflexivity.
Qed.

Lemma verify_mint_roundtrip_witness :
  verify ReferenceLaws.keys 1800
    (mint ReferenceLaws.keys 0 "42" Access 3600) Access = inr "42" /\
  verify ReferenceLaws.keys 1800
    (mint ReferenceLaws.keys 0 "42" Refresh 3600) Refresh = inr "42".
Proof.
  split;
    apply (@verify_mint_roundtrip ReferenceLaws.backend);
    solve [apply ReferenceLaws.keys_matched | lia].
Defined.

(** C7: expiry. For every subject and kind, a token whose expiry time is
    at or before the current time (for instance one minted with a negative
    ttl) fails with [TokenExpiredError], whichever kind is asked for, and
    this error is neither [TokenInvalidError] nor [TokenKindMismatchError]. *)
Theorem verify_expired `{TokenBackend} (kp : KeyPair)
    (subject : string) (k expected_kind : TokenKind)
    (ttl minted_at now : Z) :
  matched kp ->
  minted_at + ttl <= now ->
  verify kp now (mint kp minted_at subject k ttl) expected_kind =
    inl TokenExpiredError /\
  TokenExpiredError <> TokenInvalidError /\
  TokenExpiredError <> TokenKindMismatchError.
Proof.
  intros Hkp Hdead. rewrite verify_mint by exact Hkp.
  destruct (Z.leb_spec (minted_at + ttl) now); [|lia].
  repeat split; discriminate.
Qed.

Lemma verify_expired_witness :
  verify ReferenceLaws.keys 0
    (mint ReferenceLaws.keys 0 "42" Access (-1)) Access =
    inl TokenExpiredError /\
  TokenExpiredError <> TokenInvalidError /\
  TokenExpiredError <> TokenKindMismatchError.
Proof.
  apply (@verify_expired ReferenceLaws.backend);
    solve [apply ReferenceLaws.keys_matched | lia].
Defined.

(** ** The login controller *)

Section Login.
Context `{Collaborators} `{TokenBackend}.
Variable w : World.
Variable uow : list User.t.

(** The cookie a successful login for [user] sets, when the handler
    started with [reads] clock readings taken. *)
Definition refresh_cookie (user : User.t) (reads : nat) : Cookie.t :=
  {| Cookie.key := REFRESH;
     Cookie.value :=
       mint (key_pair w) (clock w (S reads)) (str (User.id user)) Refresh
         (refresh_token_expire_minutes (auth (settings w)) * 60);
     Cookie.httponly := true;
     Cookie.secure := false |}.

Definition issued_access_token (user : User.t) (reads : nat) : string :=
  mint (key_pair w) (clock w reads) (str (User.id user)) Access
    (access_token_expire_minutes (auth (settings w)) * 60).

(** The path of [login] once [user_authenticate] has returned [user]. *)
Lemma login_authenticated (request : LoginRequestSchema) (user : User.t)
    (st : HandlerState) :
  authenticate uow (credentials request) (password request) = inr user ->
  login w request uow st =
  (inr {| access_token := issued_access_token user (clock_reads st) |},
   {| response :=
        {| cookies :=
             cookies (response st)
               ++ [refresh_cookie user (clock_reads st)] |};
      minted :=
        (minted st ++ [issued_access_token user (clock_reads st)])
          ++ [Cookie.value (refresh_cookie user (clock_reads st))];
      clock_reads := S (S (clock_reads st)) |}).
Proof.
  intros Hauth. unfold login, user_authenticate. rewrite Hauth.
  reflexivity.
Qed.

(** The path of [login] when [user_authenticate] raises: the rest of the
    body does not run and the state is the one the handler started in. *)
Lemma login_rejected (request : LoginRequestSchema) (e : AuthError)
    (st : HandlerState) :
  authenticate uow (credentials request) (password request) = inl e ->
  login w request uow st = (inl (surfaced e), st).
Proof.
  intros Hauth. unfold login, user_authenticate. rewrite Hauth.
  reflexivity.
Qed.

Lemma authenticate_match (identifier secret : string) (user : User.t) :
  find_by_username_or_email uow identifier = Some user ->
  PasswordHasher_verify secret (User.password_hash user) = true ->
  authenticate uow identifier secret = inr user.
Proof.
  intros Hfind Hpw. unfold authenticate. rewrite Hfind, Hpw. reflexivity.
Qed.

Lemma authenticate_mismatch (identifier secret : string) :
  find_by_username_or_email uow identifier = None \/
  (exists user,
      find_by_username_or_email uow identifier = Some user /\
      PasswordHasher_verify secret (User.password_hash user) = false) ->
  exists e, authenticate uow identifier secret = inl e.
Proof.
  unfold authenticate. intros [Hnone | (user & Hfind & Hpw)].
  - rewrite Hnone. eauto.
  - rewrite Hfind, Hpw. eauto.
Qed.

Lemma surfaced_status (e : AuthError) : status_code (surfaced e) = 401.
Proof. destruct e; reflexivity. Qed.

Lemma surfaced_uniform (e e' : AuthError) : surfaced e = surfaced e'.
Proof. destruct e, e'; reflexivity. Qed.

(** Every response of the route carries either no cookie or the one
    refresh cookie. *)
Lemma POST_login_cookies (request : LoginRequestSchema) :
  set_cookie_headers (POST_login w uow request) = [] \/
  exists user,
    set_cookie_headers (POST_login w uow request) = [refresh_cookie user 0].
Proof.
  unfold POST_login.
  destruct (authenticate uow (credentials request) (password request))
    as [e|user] eqn:Hauth.
  - rewrite (login_rejected _ _ _ Hauth). left. reflexivity.
  - rewrite (login_authenticated _ _ _ Hauth). right. exists user.
    reflexivity.
Qed.

End Login.

(** C1: a login whose credentials match a stored user is answered with
    status 200 and a body whose [access_token] is non-empty and is an
    access token for that user; the response sets exactly one cookie, named
    [REFRESH], with [HttpOnly] set, holding a refresh token for the same
    user. *)
Theorem login_success `{Collaborators} `{TokenBackend} (w : World)
    (uow : list User.t) (request : LoginRequestSchema) (user : User.t) :
  find_by_username_or_email uow (credentials request) = Some user ->
  PasswordHasher_verify (password request) (User.password_hash user) = true ->
  exists token cookie,
    POST_login w uow request =
      {| status := 200;
         body := TokenInfo {| access_token := token |};
         set_cookie_headers := [cookie] |} /\
    token <> "" /\
    option_map (fun c => (sub c, kind c)) (claims_of token) =
      Some (str (User.id user), Access) /\
    Cookie.key cookie = REFRESH /\
    Cookie.httponly cookie = true /\
    option_map (fun c => (sub c, kind c)) (claims_of (Cookie.value cookie)) =
      Some (str (User.id user), Refresh).
Proof.
  intros Hfind Hpw.
  pose proof (authenticate_match uow _ _ _ Hfind Hpw) as Hauth.
  exists (issued_access_token w user 0), (refresh_cookie w user 0).
  split; [|split; [|split; [|split; [|split]]]].
  - unfold POST_login. rewrite (login_authenticated w uow _ _ _ Hauth).
    reflexivity.
  - apply mint_nonempty.
  - unfold claims_of, issued_access_token. rewrite parse_token_mint.
    reflexivity.
  - reflexivity.
  - reflexivity.
  - unfold claims_of, refresh_cookie. cbn [Cookie.value].
    rewrite parse_token_mint. reflexivity.
Qed.

Lemma login_success_witness :
  exists token cookie,
    @POST_login ReferenceLaws.collaborators ReferenceLaws.backend
      ReferenceLaws.world ReferenceLaws.seeded
      {| credentials := "doctor@example.com";
         password := "securepassword" |} =
      {| status := 200;
         body := TokenInfo {| access_token := token |};
         set_cookie_headers := [cookie] |} /\
    token <> "" /\
    option_map (fun c => (sub c, kind c))
      (@claims_of ReferenceLaws.backend token) = Some ("1", Access) /\
    Cookie.key cookie = "refresh_token" /\
    Cookie.httponly cookie = true /\
    option_map (fun c => (sub c, kind c))
      (@claims_of ReferenceLaws.backend (Cookie.value cookie)) =
      Some ("1", Refresh).
Proof.
  apply (@login_success ReferenceLaws.collaborators ReferenceLaws.backend
           ReferenceLaws.world ReferenceLaws.seeded
           {| credentials := "doctor@example.com";
              password := "securepassword" |}
           ReferenceLaws.doctor);
    reflexivity.
Defined.

(** The access token a successful login returns verifies as an access
    token of that user for as long as the configured TTL has not elapsed. *)
Lemma login_token_verifies `{Collaborators} `{TokenBackend} (w : World)
    (uow : list User.t) (request : LoginRequestSchema) (user : User.t)
    (now : Z) :
  matched (key_pair w) ->
  authenticate uow (credentials request) (password request) = inr user ->
  now < clock w 0 + access_token_expire_minutes (auth (settings w)) * 60 ->
  exists token,
    body (POST_login w uow request) = TokenInfo {| access_token := token |} /\
    verify (key_pair w) now token Access = inr (str (User.id user)).
Proof.
  intros Hkp Hauth Hlive. exists (issued_access_token w user 0). split.
  - unfold POST_login. rewrite (login_authenticated w uow _ _ _ Hauth).
    reflexivity.
  - unfold issued_access_token. rewrite verify_mint by exact Hkp.
    destruct (Z.leb_spec
                (clock w 0
                 + access_token_expire_minutes (auth (settings w)) * 60)
                now); [lia | reflexivity].
Qed.

(** C2: a login whose authentication fails, because the identifier is
    unknown or because the password does not match, is answered with
    status 401 and without any [Set-Cookie] header; the handler leaves the
    injected response without cookies and has minted no token. *)
Theorem login_failure `{Collaborators} `{TokenBackend} (w : World)
    (uow : list User.t) (request : LoginRequestSchema) :
  find_by_username_or_email uow (credentials request) = None \/
  (exists user,
      find_by_username_or_email uow (credentials request) = Some user /\
      PasswordHasher_verify (password request) (User.password_hash user)
        = false) ->
  status (POST_login w uow request) = 401 /\
  set_cookie_headers (POST_login w uow request) = [] /\
  cookies (response (snd (login w request uow fresh))) = [] /\
  minted (snd (login w request uow fresh)) = [].
Proof.
  intros Hfail.
  destruct (authenticate_mismatch uow _ _ Hfail) as [e Hauth].
  unfold POST_login. rewrite (login_rejected w uow _ _ _ Hauth).
  cbn. rewrite surfaced_status. auto.
Qed.

Lemma login_failure_witness :
  let wrong_password :=
    {| credentials := "doctor@example.com"; password := "guess" |} in
  status
    (@POST_login ReferenceLaws.collaborators ReferenceLaws.backend
       ReferenceLaws.world ReferenceLaws.seeded wrong_password) = 401 /\
  set_cookie_headers
    (@POST_login ReferenceLaws.collaborators ReferenceLaws.backend
       ReferenceLaws.world ReferenceLaws.seeded wrong_password) = [] /\
  cookies (response (snd
    (@login ReferenceLaws.collaborators ReferenceLaws.backend
       ReferenceLaws.world wrong_password ReferenceLaws.seeded fresh))) = [] /\
  minted (snd
    (@login ReferenceLaws.collaborators ReferenceLaws.backend
       ReferenceLaws.world wrong_password ReferenceLaws.seeded fresh)) = [].
Proof.
  apply (@login_failure ReferenceLaws.collaborators ReferenceLaws.backend).
  right. exists ReferenceLaws.doctor. split; reflexivity.
Defined.

(** C3, as amended: whatever the settings, and so whatever environment
    they were read from, every cookie the login route sets has [Secure]
    off: the controller passes the literal [secure=False]. *)
Theorem login_cookie_not_secure `{Collaborators} `{TokenBackend}
    (w : World) (uow : list User.t) (request : LoginRequestSchema)
    (cookie : Cookie.t) :
  In cookie (set_cookie_headers (POST_login w uow request)) ->
  Cookie.secure cookie = false.
Proof.
  intros Hset.
  destruct (POST_login_cookies w uow request) as [Hnone | [user Hone]].
  - rewrite Hnone in Hset. contradiction.
  - rewrite Hone in Hset. destruct Hset as [<- | []]. reflexivity.
Qed.

Lemma login_cookie_not_secure_witness :
  let request := {| credentials := "doctor"; password := "securepassword" |} in
  let cookie :=
    @refresh_cookie ReferenceLaws.collaborators ReferenceLaws.backend
      ReferenceLaws.world ReferenceLaws.doctor 0 in
  In cookie
    (set_cookie_headers
       (@POST_login ReferenceLaws.collaborators ReferenceLaws.backend
          ReferenceLaws.world ReferenceLaws.seeded request)) /\
  Cookie.secure cookie = false.
Proof.
  cbv zeta.
  assert (Hset :
    In (@refresh_cookie ReferenceLaws.collaborators ReferenceLaws.backend
          ReferenceLaws.world ReferenceLaws.doctor 0)
       (set_cookie_headers
          (@POST_login ReferenceLaws.collaborators ReferenceLaws.backend
             ReferenceLaws.world ReferenceLaws.seeded
             {| credentials := "doctor"; password := "securepassword" |})))
    by (left; reflexivity).
  split; [exact Hset|].
  exact (@login_cookie_not_secure
           ReferenceLaws.collaborators ReferenceLaws.backend
           ReferenceLaws.world ReferenceLaws.seeded _ _ Hset).
Defined.

(** C3, as stated, fails: there is no configuration input, and in fact no
    collaborator, key pair, clock, user table or request either, under
    which the login route sets a cookie with [Secure] on. *)
Lemma no_configuration_sets_secure :
  ~ exists (C : Collaborators) (B : TokenBackend) (e : Env.t) (w : World)
      (uow : list User.t) (request : LoginRequestSchema) (cookie : Cookie.t),
      settings w = fst (import_config e) /\
      In cookie (set_cookie_headers (POST_login w uow request)) /\
      Cookie.secure cookie = true.
Proof.
  intros (C & B & e & w & uow & request & cookie & _ & Hset & Hsecure).
  destruct (POST_login_cookies w uow request) as [Hnone | [user Hone]].
  - rewrite Hnone in Hset. contradiction.
  - rewrite Hone in Hset. destruct Hset as [<- | []]. discriminate Hsecure.
Qed.

(** C4: a login with a wrong secret for an existing user and a login with
    an identifier nobody has are answered identically: the error raised in
    the handler (kind, status, message) is the same, and so is the whole
    response on the wire. *)
Theorem login_enumeration_resistant `{Collaborators} `{TokenBackend}
    (w : World) (uow : list User.t)
    (wrong_secret unknown : LoginRequestSchema) (user : User.t) :
  find_by_username_or_email uow (credentials wrong_secret) = Some user ->
  PasswordHasher_verify (password wrong_secret) (User.password_hash user)
    = false ->
  find_by_username_or_email uow (credentials unknown) = None ->
  fst (login w wrong_secret uow fresh) = fst (login w unknown uow fresh) /\
  POST_login w uow wrong_secret = POST_login w uow unknown.
Proof.
  intros Hfind Hpw Hnone.
  assert (Ha : authenticate uow (credentials wrong_secret)
                 (password wrong_secret) = inl InvalidCredentialsError).
  { unfold authenticate. rewrite Hfind, Hpw. reflexivity. }
  assert (Hb : authenticate uow (credentials unknown) (password unknown)
               = inl UserNotFoundError).
  { unfold authenticate. rewrite Hnone. reflexivity. }
  unfold POST_login.
  rewrite (login_rejected w uow _ _ _ Ha), (login_rejected w uow _ _ _ Hb).
  split; reflexivity.
Qed.

Lemma login_enumeration_resistant_witness :
  let wrong_secret :=
    {| credentials := "doctor"; password := "guess" |} in
  let unknown :=
    {| credentials := "nobody@example.com"; password := "guess" |} in
  fst (@login ReferenceLaws.collaborators ReferenceLaws.backend
         ReferenceLaws.world wrong_secret ReferenceLaws.seeded fresh) =
  fst (@login ReferenceLaws.collaborators ReferenceLaws.backend
         ReferenceLaws.world unknown ReferenceLaws.seeded fresh) /\
  @POST_login ReferenceLaws.collaborators ReferenceLaws.backend
    ReferenceLaws.world ReferenceLaws.seeded wrong_secret =
  @POST_login ReferenceLaws.collaborators ReferenceLaws.backend
    ReferenceLaws.world ReferenceLaws.seeded unknown.
Proof.
  apply (@login_enumeration_resistant
           ReferenceLaws.collaborators ReferenceLaws.backend
           ReferenceLaws.world ReferenceLaws.seeded _ _ ReferenceLaws.doctor);
    reflexivity.
Defined.

(** ** The scenarios of the specification, run on the reference instance *)

Example doctor_login_scenario :
  let r :=
    @POST_login ReferenceLaws.collaborators ReferenceLaws.backend
      ReferenceLaws.world ReferenceLaws.seeded
      {| credentials := "doctor@example.com";
         password := "securepassword" |} in
  status r = 200 /\
  map Cookie.key (set_cookie_headers r) = ["refresh_token"] /\
  map Cookie.httponly (set_cookie_headers r) = [true] /\
  map Cookie.secure (set_cookie_headers r) = [false].
Proof. vm_compute. repeat split; reflexivity. Qed.

Example wrong_password_scenario :
  @POST_login ReferenceLaws.collaborators ReferenceLaws.backend
    ReferenceLaws.world ReferenceLaws.seeded
    {| credentials := "doctor@example.com"; password := "guess" |} =
  {| status := 401;
     body := ErrorDetail InvalidCredentialsError "Invalid credentials";
     set_cookie_headers := [] |}.
Proof. vm_compute. reflexivity. Qed.

Example pytest_dsn_scenario :
  target (async_database_url (DatabaseSettings_init Env.pytest))
    = Some "doctor_test" /\
  target (sync_database_url (DatabaseSettings_init Env.pytest))
    = Some "postgres".
Proof. split; reflexivity. Qed.

(** * Further properties of core/config.py *)

(** A DSN with another driver and another database, the server and the
    credentials kept. *)
Definition redirect (u : URL.t) (drivername database : string) : URL.t :=
  URL.create drivername (URL.username u) (URL.password u) (URL.host u)
    (URL.port u) database.

(** The driver name tells an async DSN from a sync one. *)
Lemma build_db_dsn_driver (u p h : string) (port : Z) (d : string)
    (async_dsn : bool) :
  URL.drivername (__build_db_dsn u p h port d async_dsn) =
  if async_dsn then "postgresql+asyncpg" else "postgresql".
Proof. destruct async_dsn; reflexivity. Qed.

(** X1: [__build_db_dsn] loses nothing: equal URLs come from equal arguments,
    the [async_dsn] flag included. *)
Theorem build_db_dsn_injective (u p h : string) (port : Z) (d : string)
    (a : bool) (u' p' h' : string) (port' : Z) (d' : string) (a' : bool) :
  __build_db_dsn u p h port d a = __build_db_dsn u' p' h' port' d' a' ->
  u = u' /\ p = p' /\ h = h' /\ port = port' /\ d = d' /\ a = a'.
Proof.
  unfold __build_db_dsn. intros Heq.
  injection Heq as Hdrv Hu Hp Hh Hport Hd.
  repeat split; try assumption.
  destruct a, a'; try reflexivity; cbn in Hdrv; discriminate Hdrv.
Qed.

Lemma build_db_dsn_injective_witness :
  "postgres" = "postgres" /\ "postgres" = "postgres" /\
  "localhost" = "localhost" /\ 5432 = 5432 /\
  "doctor_test" = "doctor_test" /\ true = true.
Proof.
  apply (build_db_dsn_injective
           "postgres" "postgres" "localhost" 5432 "doctor_test" true
           "postgres" "postgres" "localhost" 5432 "doctor_test" true).
  reflexivity.
Defined.

(** X2: After construction both DSN fields are set, whatever the environment.
    They point at the same server with the same credentials, the ones of
    the [pg_*] fields; the sync DSN uses the plain driver and names
    [pg_database], the async DSN uses [asyncpg] and names either
    [pg_test_database] or [pg_database]; so the async DSN is the sync DSN
    with driver and database replaced, and the two are never equal. *)
Theorem database_urls_share_server (e : Env.t) :
  let s := DatabaseSettings_init e in
  exists sync_url,
    sync_database_url s = Some sync_url /\
    sync_url =
      URL.create "postgresql" (pg_user s) (pg_password s) (pg_host s)
        (pg_port s) (pg_database s) /\
    async_database_url s =
      Some (redirect sync_url "postgresql+asyncpg"
              (if pytest_debug s then pg_test_database s
               else pg_database s)) /\
    async_database_url s <> sync_database_url s.
Proof.
  cbn zeta. eexists. split; [reflexivity|]. split; [reflexivity|].
  split; [reflexivity|].
  cbn. intros Heq. injection Heq as Hdrv _. discriminate Hdrv.
Qed.

(** A [DatabaseSettings] with the two DSN fields replaced. *)
Definition with_urls (self : DatabaseSettings)
    (async_url sync_url : option URL.t) : DatabaseSettings :=
  {| db_common := db_common self;
     pg_host := pg_host self;
     pg_user := pg_user self;
     pg_password := pg_password self;
     pg_database := pg_database self;
     pg_port := pg_port self;
     pg_test_database := pg_test_database self;
     pytest_debug := pytest_debug self;
     async_database_url := async_url;
     sync_database_url := sync_url |}.

(** X3: Whatever the two DSN fields hold when the "after" validators run,
    nothing or a DSN that came in from outside, the validators replace
    both: what they return depends on the [pg_*] fields and on
    [pytest_debug] only, and the two DSN fields of the result are the
    ones built from these. *)
Theorem database_validators_overwrite_urls (self : DatabaseSettings)
    (async_url sync_url : option URL.t) :
  let validated s :=
    validate_sync_database_url (validate_async_database_url s) in
  validated (with_urls self async_url sync_url) = validated self /\
  async_database_url (validated (with_urls self async_url sync_url)) =
    Some (__build_db_dsn (pg_user self) (pg_password self) (pg_host self)
            (pg_port self)
            (if pytest_debug self then pg_test_database self
             else pg_database self)
            true) /\
  sync_database_url (validated (with_urls self async_url sync_url)) =
    Some (__build_db_dsn (pg_user self) (pg_password self) (pg_host self)
            (pg_port self) (pg_database self) false).
Proof. cbn zeta. repeat split; reflexivity. Qed.

(** X4: The two validators do not depend on each other: they commute, each is
    idempotent, and a constructed [DatabaseSettings] is a fixed point of
    both, so validating it again changes nothing. *)
Theorem database_validators_compose (self : DatabaseSettings) (e : Env.t) :
  validate_sync_database_url (validate_async_database_url self) =
  validate_async_database_url (validate_sync_database_url self) /\
  validate_async_database_url (validate_async_database_url self) =
  validate_async_database_url self /\
  validate_sync_database_url (validate_sync_database_url self) =
  validate_sync_database_url self /\
  validate_async_database_url (DatabaseSettings_init e) =
  DatabaseSettings_init e /\
  validate_sync_database_url (DatabaseSettings_init e) =
  DatabaseSettings_init e.
Proof. repeat split; reflexivity. Qed.




(** * Further properties of api/v1/controllers/auth.py *)

(** The body of [login] over arbitrary collaborators: whatever
    [service.user_authenticate] and the two [Security] entry points do,
    the controller calls them in this order and with these arguments. *)
Definition login_with `{Collaborators}
    (service_user_authenticate : string -> string -> M User.t)
    (create_access_token create_refresh_token : string -> M string)
    (body : LoginRequestSchema) : M TokenInfoSchema :=
  (user <- service_user_authenticate (credentials body) (password body) ;;
   access_token <- create_access_token (str (User.id user)) ;;
   refresh_token <- create_refresh_token (str (User.id user)) ;;
   set_cookie REFRESH refresh_token true false ;;
   ret {| access_token := access_token |})%handler.

(** A collaborator that is not handed the [Response] object cannot change
    it. *)
Definition leaves_response {A : Type} (c : M A) : Prop :=
  forall st, response (snd (c st)) = response st.

(** The state after [response.set_cookie] for the refresh token. *)
Definition with_refresh_cookie `{Collaborators} (refresh_token : string)
    (st : HandlerState) : HandlerState :=
  snd (set_cookie REFRESH refresh_token true false st).

(** [login] is [login_with] at the collaborators modelled above. *)
Lemma login_is_login_with `{Collaborators} `{TokenBackend} (w : World)
    (body : LoginRequestSchema) (uow : list User.t) :
  login w body uow =
  login_with (user_authenticate uow) (Security.create_access_token w)
    (Security.create_refresh_token w) body.
Proof. reflexivity. Qed.

Lemma user_authenticate_leaves_response `{Collaborators}
    (uow : list User.t) (credentials password : string) :
  leaves_response (user_authenticate uow credentials password).
Proof.
  intros st. unfold user_authenticate.
  destruct (authenticate uow credentials password); reflexivity.
Qed.

Lemma create_token_leaves_response `{TokenBackend} (w : World)
    (k : TokenKind) (minutes : Z) (subject : string) :
  leaves_response (Security.create_token w k minutes subject).
Proof. intros st. reflexivity. Qed.

Section Controller.
Context `{Collaborators}.
Variable service_user_authenticate : string -> string -> M User.t.
Variables create_access_token create_refresh_token : string -> M string.

(** When the controller returns, all three collaborators have returned,
    in order, each starting from the state the previous one left, both
    tokens were asked for the same [str(user.id)], the body carries the
    access token and the last effect is the refresh cookie. *)
Lemma login_with_returns (body : LoginRequestSchema)
    (st st' : HandlerState) (schema : TokenInfoSchema) :
  login_with service_user_authenticate create_access_token
    create_refresh_token body st
    = (inr schema, st') <->
  exists user st1 st2 refresh_token st3,
    service_user_authenticate (credentials body) (password body) st
      = (inr user, st1) /\
    create_access_token (str (User.id user)) st1
      = (inr (access_token schema), st2) /\
    create_refresh_token (str (User.id user)) st2
      = (inr refresh_token, st3) /\
    st' = with_refresh_cookie refresh_token st3.
Proof.
  unfold login_with, bind, with_refresh_cookie. split.
  - destruct (service_user_authenticate _ _ st) as [[e|user] st1] eqn:H1;
      [discriminate|].
    destruct (create_access_token _ st1) as [[e|a] st2] eqn:H2;
      [discriminate|].
    destruct (create_refresh_token _ st2) as [[e|r] st3] eqn:H3;
      [discriminate|].
    cbn. intros Heq. injection Heq as <- <-.
    exists user, st1, st2, r, st3. auto.
  - intros (user & st1 & st2 & r & st3 & H1 & H2 & H3 & ->).
    rewrite H1, H2, H3. destruct schema. reflexivity.
Qed.

(** X7: The request and the user record reach the response through
    [str(user.id)] alone: two requests on which the service returns users
    with the same printed id, leaving the same state, get the same body,
    the same cookie and the same final state, whatever identifiers and
    passwords were sent and whatever else the two records hold. *)
Theorem login_with_uses_only_user_id (body body' : LoginRequestSchema)
    (st st1 : HandlerState) (user user' : User.t) :
  service_user_authenticate (credentials body) (password body) st
    = (inr user, st1) ->
  service_user_authenticate (credentials body') (password body') st
    = (inr user', st1) ->
  str (User.id user) = str (User.id user') ->
  login_with service_user_authenticate create_access_token
    create_refresh_token body st =
  login_with service_user_authenticate create_access_token
    create_refresh_token body' st.
Proof.
  intros H1 H2 Hid. unfold login_with, bind.
  rewrite H1, H2, Hid. reflexivity.
Qed.

Hypothesis service_leaves_response :
  forall credentials password,
    leaves_response (service_user_authenticate credentials password).
Hypothesis access_leaves_response :
  forall subject, leaves_response (create_access_token subject).
Hypothesis refresh_leaves_response :
  forall subject, leaves_response (create_refresh_token subject).

(** X8: Collaborators that leave the response alone: when the controller
    returns, the response carries the cookies it had before, in the same
    order, followed by exactly one new cookie, named [REFRESH], with
    [HttpOnly] on and [Secure] off, whose value is the token
    [create_refresh_token] returned for the [str(user.id)] that
    [create_access_token] was also called with; the body is that access
    token. *)
Theorem login_with_appends_refresh_cookie (body : LoginRequestSchema)
    (st st' : HandlerState) (schema : TokenInfoSchema) :
  login_with service_user_authenticate create_access_token
    create_refresh_token body st
    = (inr schema, st') ->
  exists user st1 st2 refresh_token st3,
    service_user_authenticate (credentials body) (password body) st
      = (inr user, st1) /\
    create_access_token (str (User.id user)) st1
      = (inr (access_token schema), st2) /\
    create_refresh_token (str (User.id user)) st2
      = (inr refresh_token, st3) /\
    cookies (response st') =
      (cookies (response st)
         ++ [{| Cookie.key := REFRESH;
                Cookie.value := refresh_token;
                Cookie.httponly := true;
                Cookie.secure := false |}])%list.
Proof.
  intros Hrun.
  apply login_with_returns in Hrun
    as (user & st1 & st2 & r & st3 & H1 & H2 & H3 & ->).
  exists user, st1, st2, r, st3. repeat split; try assumption.
  unfold with_refresh_cookie. cbn.
  pose proof (service_leaves_response (credentials body) (password body) st)
    as F1.
  pose proof (access_leaves_response (str (User.id user)) st1) as F2.
  pose proof (refresh_leaves_response (str (User.id user)) st2) as F3.
  rewrite H1 in F1. rewrite H2 in F2. rewrite H3 in F3.
  cbn in F1, F2, F3. rewrite F3, F2, F1. reflexivity.
Qed.

(** X9: Collaborators that leave the response alone: when the controller
    raises, the response is exactly as it was; no cookie is set on any
    error path, not even when the failure comes after the access token
    was created. *)
Theorem login_with_raise_keeps_response (body : LoginRequestSchema)
    (st st' : HandlerState) (e : HTTPError) :
  login_with service_user_authenticate create_access_token
    create_refresh_token body st
    = (inl e, st') ->
  response st' = response st.
Proof.
  unfold login_with, bind.
  pose proof (service_leaves_response (credentials body) (password body) st)
    as F1.
  destruct (service_user_authenticate _ _ st) as [[e1|user] st1].
  { intros Heq. injection Heq as _ <-. exact F1. }
  pose proof (access_leaves_response (str (User.id user)) st1) as F2.
  destruct (create_access_token _ st1) as [[e2|a] st2].
  { intros Heq. injection Heq as _ <-. cbn in F1, F2. congruence. }
  pose proof (refresh_leaves_response (str (User.id user)) st2) as F3.
  destruct (create_refresh_token _ st2) as [[e3|r] st3].
  { intros Heq. injection Heq as _ <-. cbn in F1, F2, F3. congruence. }
  discriminate.
Qed.

End Controller.

(** A handler state in which an earlier dependency has already put a
    cookie on the response. *)
Definition visited : HandlerState :=
  {| response :=
       {| cookies :=
            [{| Cookie.key := "session"; Cookie.value := "abc";
                Cookie.httponly := false; Cookie.secure := true |}] |};
     minted := [];
     clock_reads := 0 |}.

Lemma login_with_appends_refresh_cookie_witness :
  let body :=
    {| credentials := "doctor@example.com";
       password := "securepassword" |} in
  let service :=
    @user_authenticate ReferenceLaws.collaborators ReferenceLaws.seeded in
  let access :=
    @Security.create_access_token ReferenceLaws.backend ReferenceLaws.world in
  let refresh :=
    @Security.create_refresh_token ReferenceLaws.backend
      ReferenceLaws.world in
  exists schema st',
    @login_with ReferenceLaws.collaborators service access refresh body
      visited = (inr schema, st') /\
    exists user st1 st2 refresh_token st3,
      service (credentials body) (password body) visited = (inr user, st1) /\
      access (@str ReferenceLaws.collaborators (User.id user)) st1
        = (inr (access_token schema), st2) /\
      refresh (@str ReferenceLaws.collaborators (User.id user)) st2
        = (inr refresh_token, st3) /\
      cookies (response st') =
        (cookies (response visited)
           ++ [{| Cookie.key := "refresh_token";
                  Cookie.value := refresh_token;
                  Cookie.httponly := true;
                  Cookie.secure := false |}])%list.
Proof.
  cbv zeta. eexists. eexists. split; [reflexivity|].
  apply (@login_with_appends_refresh_cookie ReferenceLaws.collaborators
           (@user_authenticate ReferenceLaws.collaborators
              ReferenceLaws.seeded)
           (@Security.create_access_token ReferenceLaws.backend
              ReferenceLaws.world)
           (@Security.create_refresh_token ReferenceLaws.backend
              ReferenceLaws.world)).
  - intros c p. apply user_authenticate_leaves_response.
  - intros s. apply create_token_leaves_response.
  - intros s. apply create_token_leaves_response.
  - reflexivity.
Defined.

Lemma login_with_raise_keeps_response_witness :
  let body :=
    {| credentials := "doctor@example.com"; password := "guess" |} in
  exists e st',
    @login_with ReferenceLaws.collaborators
      (@user_authenticate ReferenceLaws.collaborators ReferenceLaws.seeded)
      (@Security.create_access_token ReferenceLaws.backend
         ReferenceLaws.world)
      (@Security.create_refresh_token ReferenceLaws.backend
         ReferenceLaws.world)
      body visited = (inl e, st') /\
    response st' = response visited.
Proof.
  cbv zeta. eexists. eexists. split; [reflexivity|].
  apply (@login_with_raise_keeps_response ReferenceLaws.collaborators
           (@user_authenticate ReferenceLaws.collaborators
              ReferenceLaws.seeded)
           (@Security.create_access_token ReferenceLaws.backend
              ReferenceLaws.world)
           (@Security.create_refresh_token ReferenceLaws.backend
              ReferenceLaws.world)
           (fun c p => user_authenticate_leaves_response _ c p)
           (fun s => create_token_leaves_response _ _ _ s)
           (fun s => create_token_leaves_response _ _ _ s)
           {| credentials := "doctor@example.com"; password := "guess" |}
           visited _
           (@surfaced ReferenceLaws.collaborators InvalidCredentialsError)).
  reflexivity.
Defined.

Lemma login_with_uses_only_user_id_witness :
  let by_email :=
    {| credentials := "doctor@example.com";
       password := "securepassword" |} in
  let by_username :=
    {| credentials := "doctor"; password := "securepassword" |} in
  @login_with ReferenceLaws.collaborators
    (@user_authenticate ReferenceLaws.collaborators ReferenceLaws.seeded)
    (@Security.create_access_token ReferenceLaws.backend ReferenceLaws.world)
    (@Security.create_refresh_token ReferenceLaws.backend
       ReferenceLaws.world)
    by_email visited =
  @login_with ReferenceLaws.collaborators
    (@user_authenticate ReferenceLaws.collaborators ReferenceLaws.seeded)
    (@Security.create_access_token ReferenceLaws.backend ReferenceLaws.world)
    (@Security.create_refresh_token ReferenceLaws.backend
       ReferenceLaws.world)
    by_username visited.
Proof.
  apply (@login_with_uses_only_user_id ReferenceLaws.collaborators
           (@user_authenticate ReferenceLaws.collaborators
              ReferenceLaws.seeded)
           (@Security.create_access_token ReferenceLaws.backend
              ReferenceLaws.world)
           (@Security.create_refresh_token ReferenceLaws.backend
              ReferenceLaws.world)
           _ _ visited visited ReferenceLaws.doctor ReferenceLaws.doctor);
    reflexivity.
Defined.
